(** * Cargus API client: a shallow embedding of [script.js] and its properties

    The class [cargusAPI] of [script.js] holds two mutable fields, [token] and
    [awb], and offers five [async] methods.  Each method performs at most one
    HTTP call through an axios instance, writes to the console and, for
    [printAWB], to one file.

    The embedding is a state-and-exception monad over a [World]: the two
    fields of the object, the trace of calls handed to axios, the console and
    the files of the working directory.  What the world outside the program
    does (the reply of the remote service, the failures of the disk, the
    subscription key of the absent [credentials] module) is collected in an
    [Env].  A method is awaited to completion before the next one starts. *)

From Stdlib Require Import ZArith NArith Ascii String List Lia.
From Stdlib Require Import Strings.Byte.
From stdpp Require Import base strings gmap list pretty.

Open Scope string_scope.
Open Scope Z_scope.

(** ** JavaScript values *)

#[local] Set Warnings "-register-all".

(** The values that travel through the client: JSON data received from the
    service, the arguments of the caller and the results of the methods.
    Numbers are the integers (status codes, identifiers).  A string is a
    sequence of code units below 256. *)
Inductive JsValue : Type :=
| JUndefined
| JNull
| JBool (b : bool)
| JNum (n : Z)
| JStr (s : string)
| JArr (elems : list JsValue)
| JObj (props : list (string * JsValue)).

(** [!v] is [negb (ToBoolean v)]: [undefined], [null], [false], [0] and the
    empty string are falsy, every array and object is truthy. *)
Definition ToBoolean (v : JsValue) : bool :=
  match v with
  | JUndefined | JNull => false
  | JBool b => b
  | JNum n => negb (n =? 0)
  | JStr s => negb (String.eqb s "")
  | JArr _ | JObj _ => true
  end.

(** The string a template literal [`${v}`] puts in place of [v].  This is
    the conversion JavaScript performs on strings, [null], [undefined],
    booleans, integers below 10^21 in absolute value, and on objects and
    arrays that hold no own [toString] or [valueOf] key.  On the other
    values JavaScript prints a number in exponent form or throws a
    [TypeError]; the statements below that depend on the text of a token or
    of a waybill are made for [textual] values. *)
Fixpoint ToString (v : JsValue) : string :=
  match v with
  | JUndefined => "undefined"
  | JNull => "null"
  | JBool true => "true"
  | JBool false => "false"
  | JNum n => pretty n
  | JStr s => s
  | JArr elems =>
      let elem (x : JsValue) : string :=
        match x with
        | JUndefined | JNull => ""
        | _ => ToString x
        end in
      (fix join (l : list JsValue) : string :=
         match l with
         | [] => ""
         | [x] => elem x
         | x :: rest => elem x +:+ "," +:+ join rest
         end) elems
  | JObj _ => "[object Object]"
  end.

(** Property access [v.name] on a value that is not [null] or [undefined]. *)
Fixpoint lookup_prop (name : string) (props : list (string * JsValue)) : JsValue :=
  match props with
  | [] => JUndefined
  | (k, x) :: rest => if String.eqb k name then x else lookup_prop name rest
  end.

Definition get_prop (v : JsValue) (name : string) : JsValue :=
  match v with
  | JObj props => lookup_prop name props
  | _ => JUndefined
  end.

(** The values the data model gives the token and the stored waybill: a
    string, or nothing ([null], [undefined]).  A template literal cannot
    throw on them, and [ToString] is the text it produces. *)
Definition textual (v : JsValue) : bool :=
  match v with
  | JStr _ | JNull | JUndefined => true
  | _ => false
  end.

(** ** HTTP through axios *)

Inductive Method : Type := GET | POST.

(** The second (or third) argument of [axiosInstance.get] and [.post]. *)
Record Config : Type := mkConfig {
  headers : list (string * JsValue);
  params : list (string * JsValue)
}.

(** One call handed to the axios instance. *)
Record Request : Type := mkRequest {
  method : Method;
  url : string;
  body : option JsValue;
  config : Config
}.

Record Response : Type := mkResponse {
  status : Z;
  data : JsValue
}.

(** A thrown [Error]; [response] is the [error.response] axios attaches when
    the service did answer. *)
Record JsError : Type := mkError {
  message : string;
  response : option Response
}.

(** What [await axiosInstance.get(...)] does: it yields a response or throws. *)
Inductive AxiosOutcome : Type :=
| Resolved (r : Response)
| Rejected (e : JsError).

(** What the service does with a request, before axios looks at it. *)
Inductive HttpReply : Type :=
| Reply (code : Z) (payload : JsValue)
| NoReply (reason : string).

(** The instance is built by [axios.create({ baseURL, timeout })], so the
    default [validateStatus] applies: a reply resolves when its status is in
    200..299 and rejects otherwise. *)
Definition validateStatus (code : Z) : bool := (200 <=? code) && (code <? 300).

Definition axios_settle (r : HttpReply) : AxiosOutcome :=
  match r with
  | Reply code payload =>
      if validateStatus code
      then Resolved (mkResponse code payload)
      else Rejected (mkError ("Request failed with status code " +:+ pretty code)
                             (Some (mkResponse code payload)))
  | NoReply reason => Rejected (mkError reason None)
  end.

(** ** The world and the environment *)

Inductive Level : Type := Log | Error.

Inductive ConsoleArg : Type :=
| CVal (v : JsValue)
| CErr (e : JsError).

(** One call of [console.log] or [console.error]. *)
Record ConsoleEntry : Type := mkEntry {
  level : Level;
  args : list ConsoleArg
}.

Record World : Type := mkWorld {
  token : JsValue;
  awb : JsValue;
  requests : list Request;
  console : list ConsoleEntry;
  files : gmap string (list byte)
}.

(** How a computation ends. *)
Inductive Completion (A : Type) : Type :=
| Normal (a : A)
| Throw (e : JsError).
Arguments Normal {A} a.
Arguments Throw {A} e.

Record Env : Type := mkEnv {
  (** [credentials.cargus.subscriptionKey] *)
  subscriptionKey : JsValue;
  (** the settled outcome of each call to axios *)
  remote : Request -> AxiosOutcome;
  (** [Buffer.from(v, "base64")] on an array or an object *)
  buffer_from_object : JsValue -> Completion (list byte);
  (** the message of the error [fs.writeFileSync] throws on a path, if any *)
  write_error : string -> option string
}.

(** The state of the object after [new cargusAPI()]. *)
Definition constructor : World :=
  mkWorld JNull JNull [] [] ∅.

(** ** The monad *)

Definition M (A : Type) : Type := World -> Completion A * World.

Definition ret {A} (a : A) : M A := fun w => (Normal a, w).

Definition throw {A} (e : JsError) : M A := fun w => (Throw e, w).

Definition bind {A B} (c : M A) (k : A -> M B) : M B :=
  fun w =>
    match c w with
    | (Normal a, w') => k a w'
    | (Throw e, w') => (Throw e, w')
    end.

(** [try { body } catch (error) { handler }] *)
Definition try_catch {A} (body : M A) (handler : JsError -> M A) : M A :=
  fun w =>
    match body w with
    | (Normal a, w') => (Normal a, w')
    | (Throw e, w') => handler e w'
    end.

Notation "'let!' x ':=' c 'in' k" := (bind c (fun x => k))
  (at level 10, x name, c at level 100, k at level 200).
Notation "c ';;;' k" := (bind c (fun _ => k))
  (at level 100, k at level 200, right associativity).

Definition this_token : M JsValue := fun w => (Normal (token w), w).
Definition this_awb : M JsValue := fun w => (Normal (awb w), w).

Definition set_token (v : JsValue) : M unit :=
  fun w => (Normal tt, mkWorld v (awb w) (requests w) (console w) (files w)).

Definition set_awb (v : JsValue) : M unit :=
  fun w => (Normal tt, mkWorld (token w) v (requests w) (console w) (files w)).

(** The world after one more console entry, and after one more call to axios. *)
Definition logged (l : Level) (a : list ConsoleArg) (w : World) : World :=
  mkWorld (token w) (awb w) (requests w) (console w ++ [mkEntry l a]) (files w).

Definition sent (req : Request) (w : World) : World :=
  mkWorld (token w) (awb w) (requests w ++ [req]) (console w) (files w).

Definition console_emit (l : Level) (a : list ConsoleArg) : M unit :=
  fun w => (Normal tt, logged l a w).

Definition console_log := console_emit Log.
Definition console_error := console_emit Error.

(** A call to the axios instance: the call is recorded, then it settles. *)
Definition axios_call (env : Env) (req : Request) : M Response :=
  fun w =>
    let w' := sent req w in
    match remote env req with
    | Resolved r => (Normal r, w')
    | Rejected e => (Throw e, w')
    end.

Definition axios_get (env : Env) (u : string) (c : Config) : M Response :=
  axios_call env (mkRequest GET u None c).

Definition axios_post (env : Env) (u : string) (d : JsValue) (c : Config) : M Response :=
  axios_call env (mkRequest POST u (Some d) c).

(** ** Base64 *)

(** [Buffer.from(s, "base64")] and the encoding it reverses work on groups of
    six bits.  Both are written with the shifts and masks of the Node.js
    runtime; bytes and sextets are computed in [N].  The text is read one
    code unit below 256 at a time, which covers every base64 text. *)
Module Base64.

Open Scope N_scope.

Definition table : string :=
  "ABCDEFGHIJKLMNOPQRSTUVWXYZabcdefghijklmnopqrstuvwxyz0123456789+/".

Definition pad : ascii := "="%char.

(** [table[i]] *)
Definition b64char (i : N) : ascii :=
  match String.get (N.to_nat i) table with
  | Some c => c
  | None => pad
  end.

(** The value of a character of the alphabet; the decoder reads the
    URL-safe ["-"] and ["_"] as well. *)
Definition unbase64 (c : ascii) : option N :=
  let n := N_of_ascii c in
  if (65 <=? n) && (n <=? 90) then Some (n - 65)
  else if (97 <=? n) && (n <=? 122) then Some (n - 71)
  else if (48 <=? n) && (n <=? 57) then Some (n + 4)
  else if (n =? 43) || (n =? 45) then Some 62
  else if (n =? 47) || (n =? 95) then Some 63
  else None.

(** A byte is stored by keeping the low eight bits. *)
Definition byte_of_N (n : N) : byte :=
  match Byte.of_N (N.land n 255) with
  | Some b => b
  | None => x00
  end.

(** The four sextets of three bytes [a], [b], [c]. *)
Definition sx0 (a : N) : N := N.shiftr a 2.
Definition sx1 (a b : N) : N := N.lor (N.shiftl (N.land a 3) 4) (N.shiftr b 4).
Definition sx2 (b c : N) : N := N.lor (N.shiftl (N.land b 15) 2) (N.shiftr c 6).
Definition sx3 (c : N) : N := N.land c 63.

(** The last group of one or two bytes is filled with zero bits and then
    padded to four characters. *)
Fixpoint encode (bs : list byte) : string :=
  match bs with
  | [] => ""
  | [x] =>
      let a := Byte.to_N x in
      String (b64char (sx0 a))
        (String (b64char (N.shiftl (N.land a 3) 4))
           (String pad (String pad "")))
  | [x; y] =>
      let a := Byte.to_N x in
      let b := Byte.to_N y in
      String (b64char (sx0 a))
        (String (b64char (sx1 a b))
           (String (b64char (N.shiftl (N.land b 15) 2))
              (String pad "")))
  | x :: y :: z :: rest =>
      let a := Byte.to_N x in
      let b := Byte.to_N y in
      let c := Byte.to_N z in
      String (b64char (sx0 a))
        (String (b64char (sx1 a b))
           (String (b64char (sx2 b c))
              (String (b64char (sx3 c)) (encode rest))))
  end.

(** The decoder walks the text, drops every character outside the
    alphabet and stops at the first padding character. *)
Fixpoint sextets (s : string) : list N :=
  match s with
  | EmptyString => []
  | String c rest =>
      if Ascii.eqb c pad then []
      else match unbase64 c with
           | Some v => v :: sextets rest
           | None => sextets rest
           end
  end.

Definition byte0 (s0 s1 : N) : byte :=
  byte_of_N (N.lor (N.shiftl (N.land s0 63) 2) (N.shiftr (N.land s1 48) 4)).
Definition byte1 (s1 s2 : N) : byte :=
  byte_of_N (N.lor (N.shiftl (N.land s1 15) 4) (N.shiftr (N.land s2 60) 2)).
Definition byte2 (s2 s3 : N) : byte :=
  byte_of_N (N.lor (N.shiftl (N.land s2 3) 6) (N.land s3 63)).

(** Four sextets give three bytes; a last group of two or three sextets
    gives one or two bytes, a lone sextet none. *)
Fixpoint bytes_of_sextets (l : list N) : list byte :=
  match l with
  | s0 :: s1 :: s2 :: s3 :: rest =>
      byte0 s0 s1 :: byte1 s1 s2 :: byte2 s2 s3 :: bytes_of_sextets rest
  | [s0; s1; s2] => [byte0 s0 s1; byte1 s1 s2]
  | [s0; s1] => [byte0 s0 s1]
  | _ => []
  end.

Definition decode (s : string) : list byte := bytes_of_sextets (sextets s).

(** The numbers below [k], for checks that run over all bytes or sextets. *)
Definition N_below (k : nat) : list N := map N.of_nat (seq 0 k).

End Base64.

(** ** Node.js built-ins used by [printAWB] *)

Definition TypeError (msg : string) : JsError := mkError msg None.

(** [Buffer.from(v, "base64")]: a string is decoded and never rejected; a
    primitive that is not a string throws a [TypeError]; arrays and objects
    are left to the environment. *)
Definition Buffer_from (env : Env) (v : JsValue) : M (list byte) :=
  match v with
  | JStr s => ret (Base64.decode s)
  | JArr _ | JObj _ =>
      match buffer_from_object env v with
      | Normal bytes => ret bytes
      | Throw e => throw e
      end
  | JUndefined | JNull | JBool _ | JNum _ =>
      throw (TypeError "The first argument must be of type string or an instance of Buffer, ArrayBuffer, or Array or an Array-like Object.")
  end.

(** [fs.writeFileSync(fileName, binaryData, "binary")]: the file is created
    or replaced, or the call throws and the files are taken as untouched.
    [files] is keyed by the name handed to the call: it records, for each
    name, the bytes last written under it, and two names that the disk takes
    for one file are two keys. *)
Definition writeFileSync (env : Env) (fileName : string) (binaryData : list byte) : M unit :=
  fun w =>
    match write_error env fileName with
    | Some msg => (Throw (mkError msg None), w)
    | None =>
        (Normal tt,
         mkWorld (token w) (awb w) (requests w) (console w)
                 (<[fileName := binaryData]> (files w)))
    end.

(** ** The methods of [cargusAPI] *)

Definition key_header (env : Env) : string * JsValue :=
  ("Ocp-Apim-Subscription-Key", subscriptionKey env).
Definition trace_header : string * JsValue := ("Ocp-Apim-Trace", JStr "true").
Definition json_header : string * JsValue := ("Content-Type", JStr "application/json").
Definition bearer_header (tok : JsValue) : string * JsValue :=
  ("Authorization", JStr ("Bearer " +:+ ToString tok)).

Definition loginUser (env : Env) (userName password : JsValue) : M JsValue :=
  let requestBody := JObj [("UserName", userName); ("Password", password)] in
  try_catch
    (let! response :=
       axios_post env "/LoginUser" requestBody
         (mkConfig [key_header env; trace_header; json_header] []) in
     if status response =? 200 then
       let tokenResponse := data response in
       set_token tokenResponse ;;;
       let! tok := this_token in
       console_log [CVal (JStr "LoginUser: Token obtained -"); CVal tok] ;;;
       ret (JBool true)
     else
       console_log [CVal (JStr "LoginUser: FALSE")] ;;;
       ret (JBool false))
    (fun error =>
       console_error [CVal (JStr "Error in loginUser:"); CVal (JStr (message error))] ;;;
       ret (JBool false)).

(** The class body declares [getLocalities] twice.  This is the first
    declaration (lines 64 to 98); the second one below replaces it when the
    class is evaluated, so no call ever reaches it. *)
Definition getLocalities_shadowed (env : Env) (countyId : JsValue) : M JsValue :=
  let! tok := this_token in
  if negb (ToBoolean tok) then
    console_error [CVal (JStr "Token not available. Please login first.")] ;;;
    ret JNull
  else
    try_catch
      (let hdrs := [key_header env; trace_header; json_header; bearer_header tok] in
       let queryParams := [("countryId", JNum 1); ("countyId", countyId)] in
       let! response := axios_get env "/Localities" (mkConfig hdrs queryParams) in
       if status response =? 200 then
         console_log [CVal (JStr "Localities list generated successfully.")] ;;;
         ret (data response)
       else
         console_error [CVal (JStr "Error getting localities:"); CVal (data response)] ;;;
         ret JNull)
      (fun error =>
         console_error [CVal (JStr "Error getting localities:"); CErr error] ;;;
         ret JNull).

Definition createAWB (env : Env) (awbData : JsValue) : M JsValue :=
  let! tok := this_token in
  if negb (ToBoolean tok) then
    console_error [CVal (JStr "Token not available. Please login first.")] ;;;
    ret JNull
  else
    try_catch
      (let hdrs := [key_header env; trace_header; json_header; bearer_header tok] in
       let! response := axios_post env "/Awbs" awbData (mkConfig hdrs []) in
       if status response =? 200 then
         console_log [CVal (JStr "AWB generated successfully.")] ;;;
         let awbResponse := data response in
         set_awb awbResponse ;;;
         ret (data response)
       else
         console_error [CVal (JStr "AWB not generated. Response:"); CVal (data response)] ;;;
         ret JNull)
      (fun error =>
         console_error [CVal (JStr "Error generating AWB:"); CVal (JStr (message error))] ;;;
         match response error with
         | Some r =>
             console_error [CVal (JStr "Error response:"); CVal (data r)] ;;;
             ret JNull
         | None => ret JNull
         end).

(** A method that reaches the end of its body returns [undefined]. *)
Definition getCounties (env : Env) : M JsValue :=
  let! tok := this_token in
  if negb (ToBoolean tok) then
    console_error [CVal (JStr "Token not available. Please login first.")] ;;;
    ret JNull
  else
    try_catch
      (let hdrs := [key_header env; trace_header; json_header; bearer_header tok] in
       let queryParams := [("countryId", JNum 1)] in
       let! response := axios_get env "/Counties" (mkConfig hdrs queryParams) in
       ret (data response))
      (fun error =>
         console_error [CVal (JStr "Error:"); CErr error] ;;;
         ret JUndefined).

(** The second declaration (lines 185 to 215), the one in force. *)
Definition getLocalities (env : Env) (countyId : JsValue) : M JsValue :=
  let! tok := this_token in
  if negb (ToBoolean tok) then
    console_error [CVal (JStr "Token not available. Please login first.")] ;;;
    ret JNull
  else
    try_catch
      (let hdrs := [key_header env; trace_header; json_header; bearer_header tok] in
       let queryParams := [("countryId", JNum 1); ("countyId", countyId)] in
       let! response := axios_get env "/Localities" (mkConfig hdrs queryParams) in
       if status response =? 200 then
         console_log [CVal (JStr "Localities list generated successfully.")] ;;;
         ret (data response)
       else
         ret JUndefined)
      (fun error =>
         console_error [CVal (JStr "Error"); CErr error] ;;;
         ret JUndefined).

Definition printAWB (env : Env) : M JsValue :=
  try_catch
    (let! tok := this_token in
     let hdrs := [key_header env; trace_header; bearer_header tok] in
     let! barCodes := this_awb in
     let! response :=
       axios_get env ("/AwbDocuments?barCodes=" +:+ ToString barCodes +:+ "&type=PDF&format=0")
         (mkConfig hdrs []) in
     if status response =? 200 then
       try_catch
         (let b64PdfString := data response in
          let! id := this_awb in
          let fileName := ToString id +:+ ".pdf" in
          let! binaryData := Buffer_from env b64PdfString in
          writeFileSync env fileName binaryData ;;;
          console_log [CVal (JStr ("File saved: " +:+ fileName))] ;;;
          ret (JStr fileName))
         (fun error =>
            console_error [CVal (JStr "Error generating the PDF file."); CVal (JStr (message error))] ;;;
            ret JUndefined)
     else
       ret JUndefined)
    (fun error =>
       console_error [CVal (JStr "Error getting the AWB number."); CVal (JStr (message error))] ;;;
       ret JUndefined).

(** ** The requests each method builds *)

Definition login_request (env : Env) (userName password : JsValue) : Request :=
  mkRequest POST "/LoginUser"
    (Some (JObj [("UserName", userName); ("Password", password)]))
    (mkConfig [key_header env; trace_header; json_header] []).

Definition counties_request (env : Env) (tok : JsValue) : Request :=
  mkRequest GET "/Counties" None
    (mkConfig [key_header env; trace_header; json_header; bearer_header tok]
              [("countryId", JNum 1)]).

Definition localities_request (env : Env) (tok countyId : JsValue) : Request :=
  mkRequest GET "/Localities" None
    (mkConfig [key_header env; trace_header; json_header; bearer_header tok]
              [("countryId", JNum 1); ("countyId", countyId)]).

Definition create_request (env : Env) (tok awbData : JsValue) : Request :=
  mkRequest POST "/Awbs" (Some awbData)
    (mkConfig [key_header env; trace_header; json_header; bearer_header tok] []).

Definition print_request (env : Env) (tok barCodes : JsValue) : Request :=
  mkRequest GET ("/AwbDocuments?barCodes=" +:+ ToString barCodes +:+ "&type=PDF&format=0") None
    (mkConfig [key_header env; trace_header; bearer_header tok] []).

(** A settled call that is not an OK response: axios threw, or the status is
    not 200. *)
Definition not_ok (o : AxiosOutcome) : bool :=
  match o with
  | Resolved r => negb (status r =? 200)
  | Rejected _ => true
  end.

(** ** Calls and call sequences *)

Inductive Call : Type :=
| CallLogin (userName password : JsValue)
| CallCounties
| CallLocalities (countyId : JsValue)
| CallCreate (awbData : JsValue)
| CallPrint.

Definition run_call (env : Env) (c : Call) : M JsValue :=
  match c with
  | CallLogin u p => loginUser env u p
  | CallCounties => getCounties env
  | CallLocalities countyId => getLocalities env countyId
  | CallCreate awbData => createAWB env awbData
  | CallPrint => printAWB env
  end.

(** A caller that awaits each call in turn, each one in the environment that
    holds while it runs.  The history pairs each call with how it ended. *)
Fixpoint run_calls (steps : list (Env * Call)) (w : World)
  : list (Call * Completion JsValue) * World :=
  match steps with
  | [] => ([], w)
  | (env, c) :: rest =>
      let (r, w') := run_call env c w in
      let (history, w'') := run_calls rest w' in
      ((c, r) :: history, w'')
  end.

(** A login has succeeded when [loginUser] has returned [true]. *)
Definition login_succeeded (entry : Call * Completion JsValue) : bool :=
  match entry with
  | (CallLogin _ _, Normal (JBool true)) => true
  | _ => false
  end.

(** The result a caller reads as "no result": [null] or [undefined]. *)
Definition no_result (v : JsValue) : bool :=
  match v with
  | JNull | JUndefined => true
  | _ => false
  end.

(** ** Failures *)

(** The request a call hands to axios when it starts in [w]. *)
Definition request_of (env : Env) (c : Call) (w : World) : Request :=
  match c with
  | CallLogin u p => login_request env u p
  | CallCounties => counties_request env (token w)
  | CallLocalities countyId => localities_request env (token w) countyId
  | CallCreate awbData => create_request env (token w) awbData
  | CallPrint => print_request env (token w) (awb w)
  end.

(** The methods that begin with [if (!this.token)]. *)
Definition guarded (c : Call) : bool :=
  match c with
  | CallCounties | CallLocalities _ | CallCreate _ => true
  | CallLogin _ _ | CallPrint => false
  end.

(** Decoding the body [v] or writing the file of the stored waybill throws. *)
Definition label_fails (env : Env) (w : World) (v : JsValue) : bool :=
  match fst (Buffer_from env v w) with
  | Throw _ => true
  | Normal _ =>
      match write_error env (ToString (awb w) +:+ ".pdf") with
      | Some _ => true
      | None => false
      end
  end.

(** The failures a call meets and reports: a guarded method without a
    token; a call that axios rejects; a resolved response whose status is not
    200, in [loginUser] and [createAWB]; a label that cannot be decoded or
    written, in [printAWB]. *)
Definition reported_failure (env : Env) (c : Call) (w : World) : bool :=
  if guarded c && negb (ToBoolean (token w)) then true
  else
    match remote env (request_of env c w) with
    | Rejected _ => true
    | Resolved r =>
        if status r =? 200 then
          match c with
          | CallPrint => label_fails env w (data r)
          | _ => false
          end
        else
          match c with
          | CallLogin _ _ | CallCreate _ => true
          | _ => false
          end
    end.

(** Every failure a call can meet: a guarded method without a token; a call
    that axios rejects; a resolved response whose status is not 200; a label
    that cannot be decoded or written. *)
Definition failure_outcome (env : Env) (c : Call) (w : World) : bool :=
  if guarded c && negb (ToBoolean (token w)) then true
  else
    match remote env (request_of env c w) with
    | Rejected _ => true
    | Resolved r =>
        if status r =? 200 then
          match c with
          | CallPrint => label_fails env w (data r)
          | _ => false
          end
        else true
    end.

(** What a failed call returns: [false] from [loginUser], [null] or
    [undefined] from the other methods. *)
Definition failure_value (c : Call) (v : JsValue) : bool :=
  match c with
  | CallLogin _ _ =>
      match v with
      | JBool false => true
      | _ => false
      end
  | _ => no_result v
  end.

(** ** Reading requests and histories *)

(** The value of a header of a request, [undefined] when it is not set. *)
Definition header (name : string) (req : Request) : JsValue :=
  lookup_prop name (headers (config req)).

(** The files after a list of writes, each a name and the bytes put under
    it, the oldest first. *)
Definition write_all (writes : list (string * list byte))
    (m : gmap string (list byte)) : gmap string (list byte) :=
  fold_left (fun acc nb => <[fst nb := snd nb]> acc) writes m.

(** A [createAWB] has returned something other than [null]. *)
Definition create_returned (entry : Call * Completion JsValue) : bool :=
  match entry with
  | (CallCreate _, Normal JNull) => false
  | (CallCreate _, _) => true
  | _ => false
  end.

(** ** Sample environments and sessions *)

(** A service that gives the same reply to every request, with a working
    disk and a [Buffer.from] that rejects arrays and objects. *)
Definition serving (reply : HttpReply) : Env :=
  mkEnv (JStr "subscription-key")
        (fun _ => axios_settle reply)
        (fun _ => Throw (TypeError "The first argument must be of type string."))
        (fun _ => None).

(** The same service on a disk that refuses every write. *)
Definition serving_read_only (reply : HttpReply) : Env :=
  mkEnv (JStr "subscription-key")
        (fun _ => axios_settle reply)
        (fun _ => Throw (TypeError "The first argument must be of type string."))
        (fun _ => Some "EACCES: permission denied").

(** A session that holds a token and a waybill. *)
Definition session (tok id : JsValue) : World := mkWorld tok id [] [] ∅.

(** * Properties *)

(** ** Base64: decoding reverses encoding *)

Example base64_encode_Man :
  Base64.encode [x4d; x61; x6e] = "TWFu"
  /\ Base64.encode [x4d; x61] = "TWE="
  /\ Base64.encode [x4d] = "TQ==".
Proof. repeat split; reflexivity. Qed.

Example base64_decode_Man :
  Base64.decode "TWFu" = [x4d; x61; x6e]
  /\ Base64.decode "TWE=" = [x4d; x61]
  /\ Base64.decode "TQ==" = [x4d]
  /\ Base64.decode "T W
Fu" = [x4d; x61; x6e].
Proof. repeat split; reflexivity. Qed.

Section Base64Facts.

Import Base64.
Open Scope N_scope.

Lemma N_below_forallb (k : nat) (P : N -> bool) :
  forallb P (N_below k) = true ->
  forall n, n < N.of_nat k -> P n = true.
Proof.
  intros Hall n Hn.
  rewrite forallb_forall in Hall. apply Hall.
  unfold N_below. apply in_map_iff. exists (N.to_nat n). split.
  - apply N2Nat.id.
  - apply in_seq. lia.
Qed.

Lemma N_below_forallb2 (k : nat) (P : N -> N -> bool) :
  forallb (fun a => forallb (P a) (N_below k)) (N_below k) = true ->
  forall a b, a < N.of_nat k -> b < N.of_nat k -> P a b = true.
Proof.
  intros Hall a b Ha Hb.
  apply (N_below_forallb k (P a)); [|exact Hb].
  apply (N_below_forallb k (fun a => forallb (P a) (N_below k)) Hall a Ha).
Qed.

Lemma to_N_lt (x : byte) : Byte.to_N x < N.of_nat 256.
Proof. pose proof (Byte.to_N_bounded x). lia. Qed.

Lemma byte_of_to_N (x : byte) (n : N) :
  N.land n 255 = Byte.to_N x -> byte_of_N n = x.
Proof. intros H. unfold byte_of_N. rewrite H, Byte.of_to_N. reflexivity. Qed.

(** Every sextet has its own character, which is not the padding. *)
Lemma b64char_sextet (s : N) :
  s < 64 -> Ascii.eqb (b64char s) pad = false /\ unbase64 (b64char s) = Some s.
Proof.
  intros Hs.
  pose (P := fun s => negb (Ascii.eqb (b64char s) pad)
                      && match unbase64 (b64char s) with
                         | Some v => N.eqb v s
                         | None => false
                         end).
  assert (HP : P s = true).
  { apply (N_below_forallb 64 P); [vm_compute; reflexivity | exact Hs]. }
  unfold P in HP. apply andb_prop in HP as [H1 H2].
  split.
  - now apply negb_true_iff.
  - destruct (unbase64 (b64char s)) as [v|]; [|discriminate].
    apply N.eqb_eq in H2. now subst.
Qed.

Lemma sextets_char (s : N) (rest : string) :
  s < 64 -> sextets (String (b64char s) rest) = s :: sextets rest.
Proof.
  intros Hs. destruct (b64char_sextet s Hs) as [Hpad Hun].
  simpl. rewrite Hpad, Hun. reflexivity.
Qed.

Lemma sextets_pad (rest : string) : sextets (String pad rest) = [].
Proof. reflexivity. Qed.

Ltac check1 P x :=
  apply N.eqb_eq; apply (N_below_forallb 256 P); [vm_compute; reflexivity | apply to_N_lt].
Ltac check2 P :=
  apply N.eqb_eq; apply (N_below_forallb2 256 P); [vm_compute; reflexivity | apply to_N_lt ..].

Lemma sx_bounds (x y : byte) :
  let a := Byte.to_N x in
  let b := Byte.to_N y in
  sx0 a < 64 /\ sx1 a b < 64 /\ sx2 a b < 64 /\ sx3 a < 64.
Proof.
  intros a b.
  assert (H : (sx0 a <? 64) && (sx1 a b <? 64) && (sx2 a b <? 64) && (sx3 a <? 64) = true).
  { apply (N_below_forallb2 256
             (fun a b => (sx0 a <? 64) && (sx1 a b <? 64) && (sx2 a b <? 64) && (sx3 a <? 64)));
      [vm_compute; reflexivity | apply to_N_lt ..]. }
  repeat (apply andb_prop in H as [H ?]).
  repeat split; now apply N.ltb_lt.
Qed.

Lemma byte0_sx (x y : byte) :
  byte0 (sx0 (Byte.to_N x)) (sx1 (Byte.to_N x) (Byte.to_N y)) = x.
Proof.
  apply byte_of_to_N.
  check2 (fun a b =>
            N.eqb (N.land (N.lor (N.shiftl (N.land (sx0 a) 63) 2)
                                 (N.shiftr (N.land (sx1 a b) 48) 4)) 255) a).
Qed.

Lemma sx1_low (x y : byte) :
  N.land (sx1 (Byte.to_N x) (Byte.to_N y)) 15 = N.shiftr (Byte.to_N y) 4.
Proof. check2 (fun a b => N.eqb (N.land (sx1 a b) 15) (N.shiftr b 4)). Qed.

Lemma sx2_high (y z : byte) :
  N.shiftr (N.land (sx2 (Byte.to_N y) (Byte.to_N z)) 60) 2 = N.land (Byte.to_N y) 15.
Proof. check2 (fun b c => N.eqb (N.shiftr (N.land (sx2 b c) 60) 2) (N.land b 15)). Qed.

Lemma sx2_low (y z : byte) :
  N.land (sx2 (Byte.to_N y) (Byte.to_N z)) 3 = N.shiftr (Byte.to_N z) 6.
Proof. check2 (fun b c => N.eqb (N.land (sx2 b c) 3) (N.shiftr c 6)). Qed.

Lemma nibbles (y : byte) :
  N.land (N.lor (N.shiftl (N.shiftr (Byte.to_N y) 4) 4) (N.land (Byte.to_N y) 15)) 255
  = Byte.to_N y.
Proof.
  check1 (fun b => N.eqb (N.land (N.lor (N.shiftl (N.shiftr b 4) 4) (N.land b 15)) 255) b) y.
Qed.

Lemma byte1_sx (x y z : byte) :
  byte1 (sx1 (Byte.to_N x) (Byte.to_N y)) (sx2 (Byte.to_N y) (Byte.to_N z)) = y.
Proof.
  apply byte_of_to_N. rewrite sx1_low, sx2_high. apply nibbles.
Qed.

Lemma byte2_sx (y z : byte) :
  byte2 (sx2 (Byte.to_N y) (Byte.to_N z)) (sx3 (Byte.to_N z)) = z.
Proof.
  apply byte_of_to_N. rewrite sx2_low.
  check1 (fun c => N.eqb (N.land (N.lor (N.shiftl (N.shiftr c 6) 6) (N.land (sx3 c) 63)) 255) c) z.
Qed.

Lemma tail_bounds (x : byte) :
  N.shiftl (N.land (Byte.to_N x) 3) 4 < 64 /\ N.shiftl (N.land (Byte.to_N x) 15) 2 < 64.
Proof.
  assert (H : (N.shiftl (N.land (Byte.to_N x) 3) 4 <? 64)
              && (N.shiftl (N.land (Byte.to_N x) 15) 2 <? 64) = true).
  { apply (N_below_forallb 256
             (fun a => (N.shiftl (N.land a 3) 4 <? 64) && (N.shiftl (N.land a 15) 2 <? 64)));
      [vm_compute; reflexivity | apply to_N_lt]. }
  apply andb_prop in H as [H1 H2]. split; now apply N.ltb_lt.
Qed.

Lemma byte0_tail (x : byte) :
  byte0 (sx0 (Byte.to_N x)) (N.shiftl (N.land (Byte.to_N x) 3) 4) = x.
Proof.
  apply byte_of_to_N.
  check1 (fun a => N.eqb (N.land (N.lor (N.shiftl (N.land (sx0 a) 63) 2)
                                        (N.shiftr (N.land (N.shiftl (N.land a 3) 4) 48) 4)) 255) a) x.
Qed.

Lemma byte1_tail (x y : byte) :
  byte1 (sx1 (Byte.to_N x) (Byte.to_N y)) (N.shiftl (N.land (Byte.to_N y) 15) 2) = y.
Proof.
  apply byte_of_to_N. rewrite sx1_low.
  check1 (fun b => N.eqb (N.land (N.lor (N.shiftl (N.shiftr b 4) 4)
                                        (N.shiftr (N.land (N.shiftl (N.land b 15) 2) 60) 2)) 255) b) y.
Qed.

(** Induction on a list of bytes, three at a time. *)
Lemma list_ind3 {A} (P : list A -> Prop) :
  P [] -> (forall x, P [x]) -> (forall x y, P [x; y]) ->
  (forall x y z l, P l -> P (x :: y :: z :: l)) ->
  forall l, P l.
Proof.
  intros H0 H1 H2 H3 l.
  assert (H : P l /\ (forall x, P (x :: l)) /\ (forall x y, P (x :: y :: l))).
  { induction l as [|z l (IH0 & IH1 & IH2)].
    - repeat split; auto.
    - repeat split; auto. }
  apply H.
Qed.

Lemma decode_encode (bs : list byte) : decode (encode bs) = bs.
Proof.
  unfold decode. induction bs as [|x|x y|x y z l IH] using list_ind3.
  - reflexivity.
  - destruct (sx_bounds x x) as (B0 & _).
    destruct (tail_bounds x) as (T1 & _).
    cbn [encode]. rewrite (sextets_char _ _ B0), (sextets_char _ _ T1), sextets_pad.
    cbn [bytes_of_sextets]. now rewrite byte0_tail.
  - destruct (sx_bounds x y) as (B0 & B1 & _).
    destruct (tail_bounds y) as (_ & T2).
    cbn [encode].
    rewrite (sextets_char _ _ B0), (sextets_char _ _ B1), (sextets_char _ _ T2), sextets_pad.
    cbn [bytes_of_sextets]. now rewrite byte0_sx, byte1_tail.
  - destruct (sx_bounds x y) as (B0 & B1 & _).
    destruct (sx_bounds y z) as (_ & _ & B2 & _).
    destruct (sx_bounds z z) as (_ & _ & _ & B3).
    cbn [encode].
    rewrite (sextets_char _ _ B0), (sextets_char _ _ B1), (sextets_char _ _ B2),
      (sextets_char _ _ B3).
    cbn [bytes_of_sextets]. now rewrite byte0_sx, byte1_sx, byte2_sx, IH.
Qed.

End Base64Facts.

(** ** Running the methods *)

Ltac unfold_methods :=
  unfold run_call, loginUser, getCounties, getLocalities, getLocalities_shadowed,
    createAWB, printAWB, Buffer_from, writeFileSync, axios_get, axios_post,
    axios_call, console_log, console_error, console_emit, set_token, set_awb,
    this_token, this_awb, bind, try_catch, ret, throw,
    login_request, counties_request, localities_request, create_request,
    print_request, key_header, trace_header, json_header, bearer_header in *.

Section Runs.

Variable env : Env.
Variable w : World.

(** The three guarded methods without a token. *)
Lemma getCounties_no_token :
  ToBoolean (token w) = false ->
  getCounties env w
  = (Normal JNull,
     logged Error [CVal (JStr "Token not available. Please login first.")] w).
Proof. intros H. unfold_methods. rewrite H. reflexivity. Qed.

Lemma getLocalities_no_token countyId :
  ToBoolean (token w) = false ->
  getLocalities env countyId w
  = (Normal JNull,
     logged Error [CVal (JStr "Token not available. Please login first.")] w).
Proof. intros H. unfold_methods. rewrite H. reflexivity. Qed.

Lemma createAWB_no_token awbData :
  ToBoolean (token w) = false ->
  createAWB env awbData w
  = (Normal JNull,
     logged Error [CVal (JStr "Token not available. Please login first.")] w).
Proof. intros H. unfold_methods. rewrite H. reflexivity. Qed.

End Runs.

(** Case analysis along the branches a method can take. *)
Ltac branch :=
  match goal with
  | |- context [ToBoolean ?t] => destruct (ToBoolean t) eqn:?
  | |- context [remote ?e ?r] => destruct (remote e r) as [? | ?] eqn:?
  | |- context [(status ?r =? 200)] => destruct (status r =? 200) eqn:?
  | |- context [response ?e] => destruct (response e) as [? | ] eqn:?
  | |- context [write_error ?e ?f] => destruct (write_error e f) as [? | ] eqn:?
  | |- context [buffer_from_object ?e ?v] => destruct (buffer_from_object e v) as [? | ?] eqn:?
  | |- context [match data ?r with _ => _ end] => destruct (data r) eqn:?
  end.

Ltac run_all := unfold_methods; cbn; repeat (branch; cbn).

(** ** Which method writes which field *)

Lemma loginUser_keeps_awb env u p w :
  awb (snd (loginUser env u p w)) = awb w.
Proof. run_all; reflexivity. Qed.

Lemma createAWB_keeps_token env d w :
  token (snd (createAWB env d w)) = token w.
Proof. run_all; reflexivity. Qed.

Lemma getCounties_keeps_session env w :
  token (snd (getCounties env w)) = token w /\ awb (snd (getCounties env w)) = awb w.
Proof. run_all; split; reflexivity. Qed.

Lemma getLocalities_keeps_session env c w :
  token (snd (getLocalities env c w)) = token w
  /\ awb (snd (getLocalities env c w)) = awb w.
Proof. run_all; split; reflexivity. Qed.

Lemma printAWB_keeps_session env w :
  token (snd (printAWB env w)) = token w /\ awb (snd (printAWB env w)) = awb w.
Proof.
  run_all; split; reflexivity.
Qed.

(** ** Login *)

Lemma loginUser_ok env u p w r :
  remote env (login_request env u p) = Resolved r ->
  status r = 200 ->
  loginUser env u p w
  = (Normal (JBool true),
     logged Log [CVal (JStr "LoginUser: Token obtained -"); CVal (data r)]
       (mkWorld (data r) (awb w) (requests w ++ [login_request env u p])
                (console w) (files w))).
Proof.
  intros Hr Hs. unfold_methods. cbn in *. rewrite Hr. cbn. rewrite Hs. reflexivity.
Qed.

Lemma loginUser_not_ok env u p w :
  not_ok (remote env (login_request env u p)) = true ->
  fst (loginUser env u p w) = Normal (JBool false)
  /\ token (snd (loginUser env u p w)) = token w
  /\ exists entry,
      console (snd (loginUser env u p w)) = (console w ++ [entry])%list.
Proof.
  intros H. unfold_methods. cbn in *.
  destruct (remote env _) as [r | e]; cbn in *.
  - apply negb_true_iff in H. rewrite H. cbn. eauto.
  - eauto.
Qed.

(** A login that does not return [true] leaves the token alone. *)
Lemma loginUser_unsuccessful env u p w :
  login_succeeded (CallLogin u p, fst (loginUser env u p w)) = false ->
  token (snd (loginUser env u p w)) = token w.
Proof. run_all; intros; (reflexivity || discriminate). Qed.

Lemma run_call_unsuccessful env c w :
  login_succeeded (c, fst (run_call env c w)) = false ->
  token (snd (run_call env c w)) = token w.
Proof.
  destruct c as [u p | | countyId | awbData | ]; intros H.
  - now apply loginUser_unsuccessful.
  - apply getCounties_keeps_session.
  - apply getLocalities_keeps_session.
  - apply createAWB_keeps_token.
  - apply printAWB_keeps_session.
Qed.

Lemma run_calls_without_login steps :
  forall w history w',
    run_calls steps w = (history, w') ->
    existsb login_succeeded history = false ->
    token w' = token w.
Proof.
  induction steps as [| [env c] rest IH]; intros w history w' Hrun Hno.
  - cbn in Hrun. now inversion Hrun.
  - cbn in Hrun.
    destruct (run_call env c w) as [r w1] eqn:Hcall.
    destruct (run_calls rest w1) as [h w2] eqn:Hrest.
    inversion Hrun; subst history w'. cbn in Hno.
    apply orb_false_iff in Hno as [Hc Hh].
    rewrite (IH _ _ _ Hrest Hh).
    replace w1 with (snd (run_call env c w)) by now rewrite Hcall.
    apply run_call_unsuccessful. now rewrite Hcall.
Qed.

(** C2. As long as no login has succeeded since the object was built, the
    token is still [null], and [getCounties], [getLocalities] and [createAWB]
    each return [null] without handing any request to axios. *)
Theorem unauthenticated_calls_issue_no_request
    (steps : list (Env * Call)) (history : list (Call * Completion JsValue))
    (w : World) (env : Env) (countyId awbData : JsValue) :
  run_calls steps constructor = (history, w) ->
  existsb login_succeeded history = false ->
  token w = JNull
  /\ (fst (getCounties env w) = Normal JNull
      /\ requests (snd (getCounties env w)) = requests w)
  /\ (fst (getLocalities env countyId w) = Normal JNull
      /\ requests (snd (getLocalities env countyId w)) = requests w)
  /\ (fst (createAWB env awbData w) = Normal JNull
      /\ requests (snd (createAWB env awbData w)) = requests w).
Proof.
  intros Hrun Hno.
  assert (Htok : token w = JNull) by apply (run_calls_without_login _ _ _ _ Hrun Hno).
  assert (Hfalsy : ToBoolean (token w) = false) by now rewrite Htok.
  split; [exact Htok|].
  rewrite (getCounties_no_token env w Hfalsy),
    (getLocalities_no_token env w countyId Hfalsy),
    (createAWB_no_token env w awbData Hfalsy).
  cbn. tauto.
Qed.

Lemma unauthenticated_calls_witness :
  let steps := [(serving (Reply 500 (JStr "down")), CallLogin (JStr "user") (JStr "pass"));
                (serving (NoReply "timeout of 120000ms exceeded"), CallPrint)] in
  let w := snd (run_calls steps constructor) in
  let env := serving (Reply 200 (JArr [])) in
  token w = JNull
  /\ (fst (getCounties env w) = Normal JNull
      /\ requests (snd (getCounties env w)) = requests w)
  /\ (fst (getLocalities env (JNum 7) w) = Normal JNull
      /\ requests (snd (getLocalities env (JNum 7) w)) = requests w)
  /\ (fst (createAWB env (JObj []) w) = Normal JNull
      /\ requests (snd (createAWB env (JObj []) w)) = requests w).
Proof.
  intros steps w env.
  apply (unauthenticated_calls_issue_no_request steps (fst (run_calls steps constructor))).
  - reflexivity.
  - reflexivity.
Defined.

(** C5. When the service answers the login request with status 200 and body
    [t], [loginUser] returns [true] and the token is [t], whatever it was
    before. *)
Theorem loginUser_stores_token
    (env : Env) (userName password : JsValue) (w : World) (t : JsValue) :
  remote env (login_request env userName password) = Resolved (mkResponse 200 t) ->
  fst (loginUser env userName password w) = Normal (JBool true)
  /\ token (snd (loginUser env userName password w)) = t.
Proof.
  intros Hr. rewrite (loginUser_ok _ _ _ _ _ Hr eq_refl). split; reflexivity.
Qed.

Lemma loginUser_stores_token_witness :
  let env := serving (Reply 200 (JStr "tok123")) in
  let w := session (JStr "old") JNull in
  fst (loginUser env (JStr "user") (JStr "pass") w) = Normal (JBool true)
  /\ token (snd (loginUser env (JStr "user") (JStr "pass") w)) = JStr "tok123".
Proof.
  intros env w. apply (loginUser_stores_token env); reflexivity.
Defined.

(** ** Waybill creation *)

Lemma createAWB_ok env d w r :
  ToBoolean (token w) = true ->
  remote env (create_request env (token w) d) = Resolved r ->
  status r = 200 ->
  createAWB env d w
  = (Normal (data r),
     mkWorld (token w) (data r) (requests w ++ [create_request env (token w) d])
       (console w ++ [mkEntry Log [CVal (JStr "AWB generated successfully.")]])
       (files w)).
Proof.
  intros Ht Hr Hs. unfold_methods. cbn in *. rewrite Ht. cbn. rewrite Hr. cbn.
  rewrite Hs. reflexivity.
Qed.

(** The ways [createAWB] fails: no token, or a call that is not OK. *)
Lemma createAWB_not_ok env d w :
  ToBoolean (token w) = false
  \/ not_ok (remote env (create_request env (token w) d)) = true ->
  fst (createAWB env d w) = Normal JNull
  /\ awb (snd (createAWB env d w)) = awb w
  /\ exists entries,
      entries <> []
      /\ console (snd (createAWB env d w)) = (console w ++ entries)%list.
Proof.
  intros H. unfold_methods. cbn in *.
  destruct (ToBoolean (token w)); cbn.
  - destruct H as [H | H]; [discriminate|].
    destruct (remote env _) as [r | e]; cbn in *.
    + apply negb_true_iff in H. rewrite H. cbn.
      repeat split. eexists [_]. split; [discriminate | reflexivity].
    + destruct (response e); cbn; repeat split.
      * eexists [_; _]. split; [discriminate|]. now rewrite <- app_assoc.
      * eexists [_]. split; [discriminate | reflexivity].
  - repeat split. eexists [_]. split; [discriminate | reflexivity].
Qed.

(** C1, as stated, fails on its own example: after a status 200 response
    with body [{id: "AWB1"}] the stored waybill is not the string ["AWB1"]
    but the whole object. *)
Lemma createAWB_identifier_counterexample :
  let body := JObj [("id", JStr "AWB1")] in
  let env := serving (Reply 200 body) in
  let w := session (JStr "tok") JNull in
  get_prop body "id" = JStr "AWB1"
  /\ fst (createAWB env (JObj []) w) = Normal body
  /\ awb (snd (createAWB env (JObj []) w)) <> JStr "AWB1"
  /\ awb (snd (createAWB env (JObj []) w)) <> get_prop body "id".
Proof. cbn. repeat split; discriminate. Qed.

(** C1, amended. In a session whose token is a non-empty string, after a
    [createAWB] that the service answers with status 200, the stored waybill
    is the whole response body, and the call returns that body. *)
Theorem createAWB_stores_response
    (env : Env) (awbData : JsValue) (w : World) (t : string) (body : JsValue) :
  token w = JStr t ->
  t <> "" ->
  remote env (create_request env (JStr t) awbData) = Resolved (mkResponse 200 body) ->
  fst (createAWB env awbData w) = Normal body
  /\ awb (snd (createAWB env awbData w)) = body.
Proof.
  intros Htok Ht Hr.
  assert (Htruthy : ToBoolean (token w) = true).
  { rewrite Htok. destruct t; [contradiction | reflexivity]. }
  rewrite <- Htok in Hr.
  rewrite (createAWB_ok _ _ _ _ Htruthy Hr eq_refl). split; reflexivity.
Qed.

Lemma createAWB_stores_response_witness :
  let env := serving (Reply 200 (JStr "AWB1")) in
  let w := session (JStr "tok") (JStr "AWB0") in
  fst (createAWB env (JObj [("Parcels", JNum 1)]) w) = Normal (JStr "AWB1")
  /\ awb (snd (createAWB env (JObj [("Parcels", JNum 1)]) w)) = JStr "AWB1".
Proof.
  intros env w.
  apply (createAWB_stores_response env (JObj [("Parcels", JNum 1)]) w "tok");
    [reflexivity | discriminate | reflexivity].
Defined.

(** C4. A login that fails (axios throws, or the status is not 200) returns
    [false] and leaves the token and the waybill as they were; a [createAWB]
    that fails (no token, axios throws, or the status is not 200) returns
    [null] and leaves the waybill and the token as they were. *)
Theorem failed_calls_keep_session
    (env : Env) (userName password awbData : JsValue) (w : World) :
  (not_ok (remote env (login_request env userName password)) = true ->
   fst (loginUser env userName password w) = Normal (JBool false)
   /\ token (snd (loginUser env userName password w)) = token w
   /\ awb (snd (loginUser env userName password w)) = awb w)
  /\ (ToBoolean (token w) = false
      \/ not_ok (remote env (create_request env (token w) awbData)) = true ->
      fst (createAWB env awbData w) = Normal JNull
      /\ awb (snd (createAWB env awbData w)) = awb w
      /\ token (snd (createAWB env awbData w)) = token w).
Proof.
  split.
  - intros H. destruct (loginUser_not_ok env userName password w H) as (Hr & Ht & _).
    repeat split; [exact Hr | exact Ht | apply loginUser_keeps_awb].
  - intros H. destruct (createAWB_not_ok env awbData w H) as (Hr & Ha & _).
    repeat split; [exact Hr | exact Ha | apply createAWB_keeps_token].
Qed.

Lemma failed_calls_keep_session_witness :
  let env := serving (Reply 500 (JStr "Internal Server Error")) in
  let w := session (JStr "tok") (JStr "AWB0") in
  (fst (loginUser env (JStr "user") (JStr "pass") w) = Normal (JBool false)
   /\ token (snd (loginUser env (JStr "user") (JStr "pass") w)) = token w
   /\ awb (snd (loginUser env (JStr "user") (JStr "pass") w)) = awb w)
  /\ (fst (createAWB env (JObj []) w) = Normal JNull
      /\ awb (snd (createAWB env (JObj []) w)) = awb w
      /\ token (snd (createAWB env (JObj []) w)) = token w).
Proof.
  intros env w.
  pose proof (failed_calls_keep_session env (JStr "user") (JStr "pass") (JObj []) w)
    as [Hlogin Hcreate].
  split.
  - apply Hlogin. reflexivity.
  - apply Hcreate. right. reflexivity.
Defined.

(** ** The label document *)

Lemma printAWB_ok env w r s :
  remote env (print_request env (token w) (awb w)) = Resolved r ->
  status r = 200 ->
  data r = JStr s ->
  write_error env (ToString (awb w) +:+ ".pdf") = None ->
  printAWB env w
  = (Normal (JStr (ToString (awb w) +:+ ".pdf")),
     mkWorld (token w) (awb w)
       (requests w ++ [print_request env (token w) (awb w)])
       (console w ++ [mkEntry Log [CVal (JStr ("File saved: " +:+ ToString (awb w) +:+ ".pdf"))]])
       (<[ToString (awb w) +:+ ".pdf" := Base64.decode s]> (files w))).
Proof.
  intros Hr Hs Hd Hw. unfold_methods. cbn in *.
  rewrite Hr. cbn. rewrite Hs. cbn. rewrite Hd. cbn. rewrite Hw. reflexivity.
Qed.

(** C3. In a session that holds a token [t] and a stored waybill [id], both
    strings, and on a status 200 response whose body is the base64 text of
    the bytes [b], [printAWB] leaves a file named [id ++ ".pdf"] that holds
    exactly [b], and returns that name.  The disk is taken to accept the
    write. *)
Theorem printAWB_writes_decoded_document
    (env : Env) (w : World) (t id : string) (b : list byte) :
  token w = JStr t ->
  awb w = JStr id ->
  remote env (print_request env (JStr t) (JStr id))
  = Resolved (mkResponse 200 (JStr (Base64.encode b))) ->
  write_error env (id +:+ ".pdf") = None ->
  fst (printAWB env w) = Normal (JStr (id +:+ ".pdf"))
  /\ files (snd (printAWB env w)) !! (id +:+ ".pdf") = Some b.
Proof.
  intros Ht Ha Hr Hw.
  assert (Hname : ToString (awb w) = id) by now rewrite Ha.
  rewrite <- Ht, <- Ha in Hr.
  rewrite <- Hname in Hw |- *.
  rewrite (printAWB_ok env w _ (Base64.encode b) Hr eq_refl eq_refl Hw).
  cbn [fst snd files]. split; [reflexivity|].
  rewrite lookup_insert_eq. now rewrite decode_encode.
Qed.

Lemma printAWB_writes_decoded_document_witness :
  let pdf := [x25; x50; x44; x46; x2d; x31; x2e; x34; x0a; xff; x00] in
  let env := serving (Reply 200 (JStr (Base64.encode pdf))) in
  let w := session (JStr "tok") (JStr "AWB1") in
  fst (printAWB env w) = Normal (JStr "AWB1.pdf")
  /\ files (snd (printAWB env w)) !! "AWB1.pdf" = Some pdf.
Proof.
  intros pdf env w.
  apply (printAWB_writes_decoded_document env w "tok" "AWB1" pdf); reflexivity.
Defined.

(** C7. [printAWB] tests nothing before it calls the service: in every
    session of the data model, where the token and the stored waybill are
    each a string or absent, it hands exactly one request for the document
    to axios. *)
Theorem printAWB_always_requests (env : Env) (w : World) :
  textual (token w) = true ->
  textual (awb w) = true ->
  requests (snd (printAWB env w))
  = (requests w ++ [print_request env (token w) (awb w)])%list.
Proof. intros _ _. run_all; reflexivity. Qed.

Lemma printAWB_always_requests_witness :
  let env := serving (Reply 401 JNull) in
  requests (snd (printAWB env constructor))
  = (requests constructor ++ [print_request env JNull JNull])%list.
Proof.
  intros env. apply (printAWB_always_requests env constructor); reflexivity.
Defined.

Example printAWB_on_new_object :
  requests (snd (printAWB (serving (Reply 401 JNull)) constructor))
  = [mkRequest GET "/AwbDocuments?barCodes=null&type=PDF&format=0" None
       (mkConfig [("Ocp-Apim-Subscription-Key", JStr "subscription-key");
                  ("Ocp-Apim-Trace", JStr "true");
                  ("Authorization", JStr "Bearer null")] [])].
Proof. reflexivity. Qed.

(** ** Localities *)

(** C9. In a session whose token is a non-empty string [t], [getLocalities]
    hands axios one GET of [/Localities] whose [Authorization] header is
    [Bearer] followed by [t] and whose query parameters are [countryId = 1]
    and [countyId] as given; when the answer has status 200 it returns the
    body as it is. *)
Theorem getLocalities_request
    (env : Env) (w : World) (t : string) (countyId : JsValue) :
  token w = JStr t ->
  t <> "" ->
  let req :=
    mkRequest GET "/Localities" None
      (mkConfig [("Ocp-Apim-Subscription-Key", subscriptionKey env);
                 ("Ocp-Apim-Trace", JStr "true");
                 ("Content-Type", JStr "application/json");
                 ("Authorization", JStr ("Bearer " +:+ t))]
                [("countryId", JNum 1); ("countyId", countyId)]) in
  requests (snd (getLocalities env countyId w)) = (requests w ++ [req])%list
  /\ forall records,
      remote env req = Resolved (mkResponse 200 records) ->
      fst (getLocalities env countyId w) = Normal records.
Proof.
  intros Htok Hne req. subst req.
  assert (Ht : ToBoolean (token w) = true).
  { rewrite Htok. destruct t; [contradiction | reflexivity]. }
  split.
  - unfold_methods. cbn. rewrite Ht. cbn. rewrite Htok. cbn.
    repeat (branch; cbn); reflexivity.
  - intros records Hr. unfold_methods. cbn in *. rewrite Ht. cbn. rewrite Htok. cbn.
    rewrite Hr. reflexivity.
Qed.

Lemma getLocalities_request_witness :
  let env := serving (Reply 200 (JArr [JObj [("LocalityId", JNum 150); ("Name", JStr "Cluj-Napoca")]])) in
  let w := session (JStr "tok123") JNull in
  requests (snd (getLocalities env (JNum 13) w))
  = [mkRequest GET "/Localities" None
       (mkConfig [("Ocp-Apim-Subscription-Key", JStr "subscription-key");
                  ("Ocp-Apim-Trace", JStr "true");
                  ("Content-Type", JStr "application/json");
                  ("Authorization", JStr "Bearer tok123")]
                 [("countryId", JNum 1); ("countyId", JNum 13)])]
  /\ fst (getLocalities env (JNum 13) w)
     = Normal (JArr [JObj [("LocalityId", JNum 150); ("Name", JStr "Cluj-Napoca")]]).
Proof.
  intros env w.
  assert (Hne : "tok123" <> "") by discriminate.
  destruct (getLocalities_request env w "tok123" (JNum 13) eq_refl Hne) as [Hreq Hres].
  split.
  - exact Hreq.
  - apply Hres. reflexivity.
Defined.

(** ** The frame *)

(** C10. [getCounties], [getLocalities] and [printAWB] change neither the
    token nor the stored waybill; [loginUser] does not change the waybill;
    [createAWB] does not change the token.  This holds in every session, for
    every argument and whatever the service and the disk do. *)
Theorem session_frame
    (env : Env) (w : World) (userName password countyId awbData : JsValue) :
  (token (snd (getCounties env w)) = token w
   /\ awb (snd (getCounties env w)) = awb w)
  /\ (token (snd (getLocalities env countyId w)) = token w
      /\ awb (snd (getLocalities env countyId w)) = awb w)
  /\ (token (snd (printAWB env w)) = token w
      /\ awb (snd (printAWB env w)) = awb w)
  /\ awb (snd (loginUser env userName password w)) = awb w
  /\ token (snd (createAWB env awbData w)) = token w.
Proof.
  repeat apply conj.
  - apply getCounties_keeps_session.
  - apply getCounties_keeps_session.
  - apply getLocalities_keeps_session.
  - apply getLocalities_keeps_session.
  - apply printAWB_keeps_session.
  - apply printAWB_keeps_session.
  - apply loginUser_keeps_awb.
  - apply createAWB_keeps_token.
Qed.

(** ** Counties *)

(** [getCounties] never looks at the status: whatever axios resolves with is
    returned, and nothing is written to the console. *)
Lemma getCounties_resolved env w r :
  ToBoolean (token w) = true ->
  remote env (counties_request env (token w)) = Resolved r ->
  getCounties env w = (Normal (data r), sent (counties_request env (token w)) w).
Proof.
  intros Ht Hr. unfold_methods. cbn in *. rewrite Ht. cbn. rewrite Hr. reflexivity.
Qed.

Lemma getCounties_rejected env w e :
  ToBoolean (token w) = true ->
  remote env (counties_request env (token w)) = Rejected e ->
  getCounties env w
  = (Normal JUndefined,
     logged Error [CVal (JStr "Error:"); CErr e] (sent (counties_request env (token w)) w)).
Proof.
  intros Ht Hr. unfold_methods. cbn in *. rewrite Ht. cbn. rewrite Hr. reflexivity.
Qed.

(** C6 at a failing input.  The service answers the counties request with
    status 202 and a body that holds no counties: [getCounties] returns that
    body and writes no diagnostic, where [getLocalities] on the same answer
    returns [undefined] and [createAWB] returns [null] with a diagnostic. *)
Theorem getCounties_ignores_status :
  let body := JObj [("message", JStr "queued")] in
  let env := serving (Reply 202 body) in
  let w := session (JStr "tok") JNull in
  not_ok (remote env (counties_request env (token w))) = true
  /\ fst (getCounties env w) = Normal body
  /\ console (snd (getCounties env w)) = console w
  /\ fst (getLocalities env (JNum 1) w) = Normal JUndefined
  /\ fst (createAWB env (JObj []) w) = Normal JNull.
Proof. cbn. repeat split; reflexivity. Qed.

(** The declaration of [getLocalities] that is replaced reports a status
    other than 200 and returns [null]; the one in force does neither. *)
Example getLocalities_declarations_differ :
  let env := serving (Reply 204 (JStr "")) in
  let w := session (JStr "tok") JNull in
  getLocalities_shadowed env (JNum 1) w
  = (Normal JNull,
     logged Error [CVal (JStr "Error getting localities:"); CVal (JStr "")]
       (sent (localities_request env (JStr "tok") (JNum 1)) w))
  /\ getLocalities env (JNum 1) w
     = (Normal JUndefined, sent (localities_request env (JStr "tok") (JNum 1)) w).
Proof. split; reflexivity. Qed.

(** ** Failures at the boundary *)

(** C8, as stated, fails: a failed login returns [false], which is a result
    and not the absence of one; and on a resolved response whose status is
    not 200, [getLocalities] and [printAWB] return [undefined] without any
    diagnostic, and [getCounties] returns the body without any diagnostic. *)
Lemma uniform_failure_counterexample :
  let down := serving (NoReply "connect ECONNREFUSED") in
  let env := serving (Reply 204 (JStr "")) in
  let w := session (JStr "tok") (JStr "AWB1") in
  (fst (loginUser down (JStr "user") (JStr "pass") w) = Normal (JBool false)
   /\ no_result (JBool false) = false)
  /\ (not_ok (remote env (localities_request env (token w) (JNum 1))) = true
      /\ fst (getLocalities env (JNum 1) w) = Normal JUndefined
      /\ console (snd (getLocalities env (JNum 1) w)) = console w)
  /\ (not_ok (remote env (print_request env (token w) (awb w))) = true
      /\ fst (printAWB env w) = Normal JUndefined
      /\ console (snd (printAWB env w)) = console w)
  /\ (not_ok (remote env (counties_request env (token w))) = true
      /\ fst (getCounties env w) = Normal (JStr "")
      /\ console (snd (getCounties env w)) = console w).
Proof. cbn. repeat split; reflexivity. Qed.

Ltac diagnosed :=
  solve [ eexists [_]; split; [discriminate | reflexivity]
        | eexists [_; _]; split; [discriminate | cbn; rewrite <- app_assoc; reflexivity] ].

(** C8, amended. No call ever ends in an exception.  On every failure (no
    token in a guarded method; a request that axios rejects; a resolved
    response whose status is not 200; a label that cannot be decoded or
    written) every method but [getCounties] returns its failure value:
    [false] from [loginUser], [null] or [undefined] from the others.  On the
    failures a call reports (all of them but a resolved status other than
    200 in [getCounties], [getLocalities] and [printAWB]) it writes at least
    one diagnostic and returns its failure value, [getCounties] too. *)
Theorem failures_are_contained (env : Env) (c : Call) (w : World) :
  exists v,
    fst (run_call env c w) = Normal v
    /\ (failure_outcome env c w = true ->
        c <> CallCounties ->
        failure_value c v = true)
    /\ (reported_failure env c w = true ->
        failure_value c v = true
        /\ exists entries,
            entries <> []
            /\ console (snd (run_call env c w)) = (console w ++ entries)%list).
Proof.
  unfold failure_outcome, reported_failure, label_fails, request_of, guarded.
  destruct c as [u p | | countyId | awbData | ].
  all: run_all.
  all: eexists; split; [reflexivity|]; split.
  all: try (intros Hf Hc; first [discriminate Hf | reflexivity | now destruct Hc]).
  all: intros Hfail; try discriminate.
  all: split; [reflexivity | diagnosed].
Qed.

Lemma failures_are_contained_witness :
  let env := serving_read_only (Reply 200 (JStr "JVBERi0xLjQ=")) in
  let w := session (JStr "tok") (JStr "AWB1") in
  exists v,
    fst (run_call env CallPrint w) = Normal v
    /\ failure_value CallPrint v = true
    /\ exists entries,
        entries <> []
        /\ console (snd (run_call env CallPrint w)) = (console w ++ entries)%list.
Proof.
  intros env w.
  destruct (failures_are_contained env CallPrint w) as (v & Hv & Hvalue & Hfail).
  assert (Hfv : failure_value CallPrint v = true).
  { apply Hvalue; [reflexivity | discriminate]. }
  exists v. split; [exact Hv|]. split; [exact Hfv|].
  apply Hfail. reflexivity.
Defined.

(** * Further properties of the methods *)

(** ** The trace of requests *)

Lemma call_sends env c w :
  requests (snd (run_call env c w))
  = if guarded c && negb (ToBoolean (token w)) then requests w
    else (requests w ++ [request_of env c w])%list.
Proof.
  unfold guarded, request_of.
  destruct c as [u p | | countyId | awbData | ]; run_all; reflexivity.
Qed.

(** X1. A guarded method that finds no token hands axios no request.  In
    every other case, in a session whose token and stored waybill are each
    a string or absent, a call hands axios exactly one request: the one
    built from its arguments and the session, whatever the service then
    answers. *)
Theorem one_request_per_call (env : Env) (c : Call) (w : World) :
  (guarded c = true -> ToBoolean (token w) = false ->
   requests (snd (run_call env c w)) = requests w)
  /\ (textual (token w) = true -> textual (awb w) = true ->
      guarded c = false \/ ToBoolean (token w) = true ->
      requests (snd (run_call env c w)) = (requests w ++ [request_of env c w])%list).
Proof.
  rewrite call_sends. split.
  - intros Hg Ht. now rewrite Hg, Ht.
  - intros _ _ [Hg | Ht]; [now rewrite Hg | rewrite Ht; now rewrite andb_false_r].
Qed.

Lemma one_request_per_call_witness :
  let env := serving (NoReply "timeout of 120000ms exceeded") in
  let w := session (JStr "tok") (JStr "AWB1") in
  requests (snd (run_call env CallCounties constructor)) = requests constructor
  /\ requests (snd (run_call env CallPrint constructor))
     = (requests constructor ++ [request_of env CallPrint constructor])%list
  /\ requests (snd (run_call env (CallCreate (JObj [])) w))
     = (requests w ++ [request_of env (CallCreate (JObj [])) w])%list.
Proof.
  intros env w. split; [|split].
  - apply (proj1 (one_request_per_call env CallCounties constructor)); reflexivity.
  - apply (proj2 (one_request_per_call env CallPrint constructor));
      [reflexivity | reflexivity | left; reflexivity].
  - apply (proj2 (one_request_per_call env (CallCreate (JObj [])) w));
      [reflexivity | reflexivity | right; reflexivity].
Defined.

(** X2. A caller that awaits a sequence of calls keeps every earlier request
    in the trace and adds at most one request per call. *)
Theorem requests_grow_by_calls (steps : list (Env * Call)) (w : World) :
  exists added,
    requests (snd (run_calls steps w)) = (requests w ++ added)%list
    /\ (length added <= length steps)%nat.
Proof.
  revert w. induction steps as [| [env c] rest IH]; intros w.
  - exists []. cbn. split; [now rewrite app_nil_r | lia].
  - cbn. destruct (run_call env c w) as [r w1] eqn:Hcall.
    destruct (IH w1) as (added & Hadd & Hlen).
    destruct (run_calls rest w1) as [h w2] eqn:Hrest. cbn in *.
    pose proof (call_sends env c w) as Hone. rewrite Hcall in Hone. cbn in Hone.
    rewrite Hadd, Hone.
    destruct (guarded c && negb (ToBoolean (token w))).
    + exists added. split; [reflexivity | lia].
    + exists (request_of env c w :: added). split.
      * now rewrite <- app_assoc.
      * cbn. lia.
Qed.

(** X3. In a session whose token and stored waybill are each a string or
    absent, every request a call sends carries the subscription key and the
    trace header.  The login request carries no [Authorization] header; every
    other request carries [Bearer] followed by the token of the session.
    Every request but the one of [printAWB] declares a JSON content type. *)
Theorem sent_request_headers (env : Env) (c : Call) (w : World) (req : Request) :
  textual (token w) = true ->
  textual (awb w) = true ->
  requests (snd (run_call env c w)) = (requests w ++ [req])%list ->
  header "Ocp-Apim-Subscription-Key" req = subscriptionKey env
  /\ header "Ocp-Apim-Trace" req = JStr "true"
  /\ header "Authorization" req
     = match c with
       | CallLogin _ _ => JUndefined
       | _ => JStr ("Bearer " +:+ ToString (token w))
       end
  /\ header "Content-Type" req
     = match c with
       | CallPrint => JUndefined
       | _ => JStr "application/json"
       end.
Proof.
  intros _ _. rewrite call_sends. intros H.
  assert (Hreq : req = request_of env c w).
  { destruct (guarded c && negb (ToBoolean (token w))).
    - rewrite <- (app_nil_r (requests w)) in H at 1.
      apply app_inv_head in H. discriminate.
    - apply app_inv_head in H. now inversion H. }
  subst req. destruct c; repeat split; reflexivity.
Qed.

Lemma sent_request_headers_witness :
  let env := serving (Reply 200 (JArr [])) in
  let w := session (JStr "tok123") JNull in
  let req := counties_request env (JStr "tok123") in
  header "Ocp-Apim-Subscription-Key" req = JStr "subscription-key"
  /\ header "Ocp-Apim-Trace" req = JStr "true"
  /\ header "Authorization" req = JStr "Bearer tok123"
  /\ header "Content-Type" req = JStr "application/json".
Proof.
  intros env w req.
  apply (sent_request_headers env CallCounties w req); reflexivity.
Defined.

(** ** The files *)

(** A call writes nothing, or it is [printAWB] and writes one name. *)
Lemma call_writes env c w :
  files (snd (run_call env c w)) = files w
  \/ (c = CallPrint
      /\ exists bytes,
          files (snd (run_call env c w))
          = <[ToString (awb w) +:+ ".pdf" := bytes]> (files w)).
Proof.
  destruct c as [u p | | countyId | awbData | ]; run_all; try (left; reflexivity).
  all: right; split; [reflexivity | eexists; reflexivity].
Qed.

(** X4. Only [printAWB] hands anything to [fs.writeFileSync]: every other
    method leaves the files as they are.  In a session whose token and
    stored waybill are each a string or absent, a call of [printAWB] writes
    nothing or writes under one name, the text of the waybill followed by
    [".pdf"]. *)
Theorem files_frame (env : Env) (c : Call) (w : World) :
  (c <> CallPrint -> files (snd (run_call env c w)) = files w)
  /\ (textual (token w) = true -> textual (awb w) = true ->
      files (snd (run_call env c w)) = files w
      \/ (c = CallPrint
          /\ exists bytes,
              files (snd (run_call env c w))
              = <[ToString (awb w) +:+ ".pdf" := bytes]> (files w))).
Proof.
  split.
  - intros Hc. destruct (call_writes env c w) as [H | [H _]]; [exact H | contradiction].
  - intros _ _. apply call_writes.
Qed.

Lemma files_frame_witness :
  let env := serving (Reply 200 (JStr "JVBERi0xLjQ=")) in
  let w := mkWorld (JStr "tok") (JStr "AWB1") [] [] {["notes.txt" := [x68; x69]]} in
  files (snd (run_call env (CallCreate (JObj [])) w)) = files w
  /\ (files (snd (run_call env CallPrint w)) = files w
      \/ (CallPrint = CallPrint
          /\ exists bytes,
              files (snd (run_call env CallPrint w))
              = <["AWB1.pdf" := bytes]> (files w))).
Proof.
  intros env w. split.
  - apply (proj1 (files_frame env (CallCreate (JObj [])) w)). discriminate.
  - apply (proj2 (files_frame env CallPrint w)); reflexivity.
Defined.

(** X5. Over any sequence of calls, the files at the end are the files at
    the start after a list of writes, at most one per call, and every name
    handed to [fs.writeFileSync] ends in [".pdf"]. *)
Theorem only_pdf_names_written (steps : list (Env * Call)) (w : World) :
  exists writes,
    files (snd (run_calls steps w)) = write_all writes (files w)
    /\ Forall (fun nb => exists id, fst nb = id +:+ ".pdf") writes
    /\ (length writes <= length steps)%nat.
Proof.
  revert w. induction steps as [| [env c] rest IH]; intros w.
  - exists []. cbn. repeat split; [constructor | lia].
  - cbn. destruct (run_call env c w) as [r w1] eqn:Hcall.
    destruct (IH w1) as (writes & Hfiles & Hpdf & Hlen).
    destruct (run_calls rest w1) as [h w2] eqn:Hrest. cbn in *.
    pose proof (call_writes env c w) as Hone. rewrite Hcall in Hone. cbn in Hone.
    destruct Hone as [Hsame | (_ & bytes & Hwrite)].
    + exists writes. rewrite Hfiles, Hsame. repeat split; [exact Hpdf | lia].
    + exists ((ToString (awb w) +:+ ".pdf", bytes) :: writes).
      rewrite Hfiles, Hwrite. repeat split.
      * constructor; [now exists (ToString (awb w)) | exact Hpdf].
      * cbn. lia.
Qed.

(** X6. In a session whose token and stored waybill are each a string or
    absent, [printAWB] returns [undefined] or the name made of the text of
    the waybill and [".pdf"]; it returns the name only after a status 200
    response, and then a file has been written under that name. *)
Theorem printAWB_result (env : Env) (w : World) :
  textual (token w) = true ->
  textual (awb w) = true ->
  let name := ToString (awb w) +:+ ".pdf" in
  fst (printAWB env w) = Normal JUndefined
  \/ (fst (printAWB env w) = Normal (JStr name)
      /\ is_Some (files (snd (printAWB env w)) !! name)
      /\ exists r,
          remote env (print_request env (token w) (awb w)) = Resolved r
          /\ status r = 200).
Proof.
  intros _ _. run_all; try (left; reflexivity).
  all: right; split; [reflexivity|]; split;
    [rewrite lookup_insert_eq; eauto|].
  all: match goal with
       | Hs : (status ?r =? 200) = true |- _ =>
           apply Z.eqb_eq in Hs; exists r; split; [reflexivity | exact Hs]
       end.
Qed.

Lemma printAWB_result_witness :
  let env := serving (Reply 200 (JStr "JVBERi0xLjQ=")) in
  let w := session (JStr "tok") (JStr "AWB1") in
  fst (printAWB env w) = Normal JUndefined
  \/ (fst (printAWB env w) = Normal (JStr "AWB1.pdf")
      /\ is_Some (files (snd (printAWB env w)) !! "AWB1.pdf")
      /\ exists r,
          remote env (print_request env (token w) (awb w)) = Resolved r
          /\ status r = 200).
Proof.
  intros env w. apply (printAWB_result env w); reflexivity.
Defined.

(** X7. In a session whose token and stored waybill are each a string or
    absent, after a status 200 response whose body is a string, [printAWB]
    never takes the path of a decoding failure: when the disk accepts the
    write it writes a file under the name of the waybill and returns the
    name; when the disk refuses, it returns [undefined] after one diagnostic
    that carries the message of the disk. *)
Theorem printAWB_string_body
    (env : Env) (w : World) (s : string) :
  textual (token w) = true ->
  textual (awb w) = true ->
  remote env (print_request env (token w) (awb w))
  = Resolved (mkResponse 200 (JStr s)) ->
  let name := ToString (awb w) +:+ ".pdf" in
  match write_error env name with
  | None =>
      fst (printAWB env w) = Normal (JStr name)
      /\ is_Some (files (snd (printAWB env w)) !! name)
  | Some msg =>
      fst (printAWB env w) = Normal JUndefined
      /\ console (snd (printAWB env w))
         = (console w
            ++ [mkEntry Error [CVal (JStr "Error generating the PDF file.");
                               CVal (JStr msg)]])%list
  end.
Proof.
  intros _ _ Hr name. subst name. unfold_methods. cbn in *. rewrite Hr. cbn.
  destruct (write_error env _) as [msg |]; cbn; repeat split; try reflexivity.
  rewrite lookup_insert_eq. eauto.
Qed.

Lemma printAWB_string_body_witness :
  let env := serving_read_only (Reply 200 (JStr "not base64 at all!")) in
  let w := session (JStr "tok") (JStr "AWB1") in
  fst (printAWB env w) = Normal JUndefined
  /\ console (snd (printAWB env w))
     = (console w
        ++ [mkEntry Error [CVal (JStr "Error generating the PDF file.");
                           CVal (JStr "EACCES: permission denied")]])%list.
Proof.
  intros env w.
  apply (printAWB_string_body env w "not base64 at all!"); reflexivity.
Defined.

(** What [printAWB] returns and writes depends on the session only through
    the token and the stored waybill. *)
Lemma printAWB_depends env w1 w2 :
  token w1 = token w2 ->
  awb w1 = awb w2 ->
  fst (printAWB env w1) = fst (printAWB env w2)
  /\ ((files (snd (printAWB env w1)) = files w1
       /\ files (snd (printAWB env w2)) = files w2)
      \/ exists bytes,
          files (snd (printAWB env w1))
          = <[ToString (awb w1) +:+ ".pdf" := bytes]> (files w1)
          /\ files (snd (printAWB env w2))
             = <[ToString (awb w1) +:+ ".pdf" := bytes]> (files w2)).
Proof.
  destruct w1 as [t1 a1 r1 c1 f1], w2 as [t2 a2 r2 c2 f2]. cbn.
  intros <- <-. run_all; split; try reflexivity.
  all: try (left; split; reflexivity).
  all: right; eexists; split; reflexivity.
Qed.

(** X8. In a session whose token and stored waybill are each a string or
    absent, printing twice against a service and a disk that answer the
    second call as they answered the first gives the same result and the
    same files as printing once; the trace of requests holds the document
    request twice. *)
Theorem printAWB_twice (env : Env) (w : World) :
  textual (token w) = true ->
  textual (awb w) = true ->
  let once := printAWB env w in
  let twice := printAWB env (snd once) in
  fst twice = fst once
  /\ files (snd twice) = files (snd once)
  /\ requests (snd twice)
     = (requests w ++ [print_request env (token w) (awb w);
                       print_request env (token w) (awb w)])%list.
Proof.
  intros _ _ once twice. subst once twice.
  destruct (printAWB_keeps_session env w) as [Ht Ha].
  destruct (printAWB_depends env (snd (printAWB env w)) w Ht Ha) as [Hres Hfiles].
  split; [exact Hres|]. split.
  - destruct Hfiles as [[H2 H1] | (bytes & H2 & H1)].
    + exact H2.
    + rewrite H2, H1. apply insert_insert_eq.
  - pose proof (call_sends env CallPrint (snd (printAWB env w))) as H2.
    pose proof (call_sends env CallPrint w) as H1.
    cbn in H1, H2. rewrite H2, H1, Ht, Ha. now rewrite <- app_assoc.
Qed.

Lemma printAWB_twice_witness :
  let env := serving (Reply 200 (JStr "JVBERi0xLjQ=")) in
  let w := session (JStr "tok") (JStr "AWB1") in
  let once := printAWB env w in
  let twice := printAWB env (snd once) in
  fst twice = fst once
  /\ files (snd twice) = files (snd once)
  /\ requests (snd twice)
     = (requests w ++ [print_request env (token w) (awb w);
                       print_request env (token w) (awb w)])%list.
Proof.
  intros env w. apply (printAWB_twice env w); reflexivity.
Defined.

(** ** Login and what follows it *)

(** X9. [loginUser] always returns a boolean, and it returns [true] exactly
    when axios resolved the login request with status 200. *)
Theorem loginUser_returns_boolean
    (env : Env) (userName password : JsValue) (w : World) :
  exists b,
    fst (loginUser env userName password w) = Normal (JBool b)
    /\ (b = true <->
        exists r,
          remote env (login_request env userName password) = Resolved r
          /\ status r = 200).
Proof.
  unfold_methods. cbn.
  destruct (remote env _) as [r | e] eqn:Hr; cbn.
  - destruct (status r =? 200) eqn:Hs; cbn.
    + exists true. split; [reflexivity|]. split; [|reflexivity].
      intros _. exists r. split; [reflexivity | now apply Z.eqb_eq].
    + exists false. split; [reflexivity|]. split; [discriminate|].
      intros (r' & Hr' & Hs'). inversion Hr'; subst r'.
      apply Z.eqb_neq in Hs. contradiction.
  - exists false. split; [reflexivity|]. split; [discriminate|].
    intros (r' & Hr' & _). discriminate.
Qed.

(** X10. A login can succeed and still leave the session unauthenticated:
    when the status 200 body is falsy (an empty string, [null], [0],
    [false]), [loginUser] returns [true], and the guarded methods go on
    returning [null] without sending anything. *)
Theorem login_with_falsy_token
    (env env' : Env) (userName password countyId awbData : JsValue)
    (w : World) (t : JsValue) :
  remote env (login_request env userName password) = Resolved (mkResponse 200 t) ->
  ToBoolean t = false ->
  let w' := snd (loginUser env userName password w) in
  fst (loginUser env userName password w) = Normal (JBool true)
  /\ (fst (getCounties env' w') = Normal JNull
      /\ requests (snd (getCounties env' w')) = requests w')
  /\ (fst (getLocalities env' countyId w') = Normal JNull
      /\ requests (snd (getLocalities env' countyId w')) = requests w')
  /\ (fst (createAWB env' awbData w') = Normal JNull
      /\ requests (snd (createAWB env' awbData w')) = requests w').
Proof.
  intros Hr Ht w'. subst w'.
  rewrite (loginUser_ok _ _ _ _ _ Hr eq_refl). cbn [fst snd].
  set (w' := logged _ _ _).
  assert (Hfalsy : ToBoolean (token w') = false) by exact Ht.
  rewrite (getCounties_no_token env' w' Hfalsy),
    (getLocalities_no_token env' w' countyId Hfalsy),
    (createAWB_no_token env' w' awbData Hfalsy).
  cbn. tauto.
Qed.

Lemma login_with_falsy_token_witness :
  let env := serving (Reply 200 (JStr "")) in
  let env' := serving (Reply 200 (JArr [])) in
  let w' := snd (loginUser env (JStr "user") (JStr "pass") constructor) in
  fst (loginUser env (JStr "user") (JStr "pass") constructor) = Normal (JBool true)
  /\ (fst (getCounties env' w') = Normal JNull
      /\ requests (snd (getCounties env' w')) = requests w')
  /\ (fst (getLocalities env' (JNum 1) w') = Normal JNull
      /\ requests (snd (getLocalities env' (JNum 1) w')) = requests w')
  /\ (fst (createAWB env' (JObj []) w') = Normal JNull
      /\ requests (snd (createAWB env' (JObj []) w')) = requests w').
Proof.
  intros env env' w'.
  apply (login_with_falsy_token env env' (JStr "user") (JStr "pass") (JNum 1) (JObj [])
           constructor (JStr "")); reflexivity.
Defined.

(** X11. After a login answered with status 200 and a non-empty string [t],
    in a session whose stored waybill is a string or absent, the next call
    of any other method sends exactly one request, and that request carries
    [Bearer] followed by [t]. *)
Theorem token_reaches_next_request
    (env env' : Env) (userName password : JsValue) (w : World) (t : string) (c : Call) :
  remote env (login_request env userName password) = Resolved (mkResponse 200 (JStr t)) ->
  t <> "" ->
  textual (awb w) = true ->
  (forall u p, c <> CallLogin u p) ->
  let w' := snd (loginUser env userName password w) in
  exists req,
    requests (snd (run_call env' c w')) = (requests w' ++ [req])%list
    /\ header "Authorization" req = JStr ("Bearer " +:+ t).
Proof.
  intros Hr Ht _ Hc w'. subst w'.
  rewrite (loginUser_ok _ _ _ _ _ Hr eq_refl). cbn [snd].
  set (w' := logged _ _ _).
  exists (request_of env' c w'). rewrite call_sends.
  replace (ToBoolean (token w')) with true
    by (cbn; destruct t; [contradiction | reflexivity]).
  rewrite andb_false_r. split; [reflexivity|].
  destruct c as [u p | | countyId | awbData | ]; [now destruct (Hc u p) | ..]; reflexivity.
Qed.

Lemma token_reaches_next_request_witness :
  let env := serving (Reply 200 (JStr "tok123")) in
  let env' := serving (Reply 200 (JArr [])) in
  let w' := snd (loginUser env (JStr "user") (JStr "pass") constructor) in
  exists req,
    requests (snd (run_call env' CallCounties w')) = (requests w' ++ [req])%list
    /\ header "Authorization" req = JStr "Bearer tok123".
Proof.
  intros env env' w'.
  apply (token_reaches_next_request env env' (JStr "user") (JStr "pass") constructor
           "tok123" CallCounties); [reflexivity | discriminate | reflexivity | discriminate].
Defined.

(** ** Waybills and their labels *)

(** X12. From creation to label, in a session whose token is a non-empty
    string [t]: after a [createAWB] answered with status 200 and a string
    [id], [printAWB] asks for the bar code [id] and, on a status 200 response
    whose body is the base64 text of the bytes [b] and a disk that accepts
    the write, stores exactly [b] under [id ++ ".pdf"] and returns that
    name. *)
Theorem label_follows_waybill
    (env env' : Env) (awbData : JsValue) (w : World) (t id : string) (b : list byte) :
  token w = JStr t ->
  t <> "" ->
  remote env (create_request env (JStr t) awbData) = Resolved (mkResponse 200 (JStr id)) ->
  remote env' (print_request env' (JStr t) (JStr id))
  = Resolved (mkResponse 200 (JStr (Base64.encode b))) ->
  write_error env' (id +:+ ".pdf") = None ->
  let w' := snd (createAWB env awbData w) in
  url (print_request env' (JStr t) (JStr id))
  = "/AwbDocuments?barCodes=" +:+ id +:+ "&type=PDF&format=0"
  /\ requests (snd (printAWB env' w'))
     = (requests w' ++ [print_request env' (JStr t) (JStr id)])%list
  /\ fst (printAWB env' w') = Normal (JStr (id +:+ ".pdf"))
  /\ files (snd (printAWB env' w')) !! (id +:+ ".pdf") = Some b.
Proof.
  intros Htok Hne Hc Hp Hw w'. subst w'.
  assert (Ht : ToBoolean (token w) = true).
  { rewrite Htok. destruct t; [contradiction | reflexivity]. }
  rewrite <- Htok in Hc, Hp |- *.
  rewrite (createAWB_ok _ _ _ _ Ht Hc eq_refl). cbn [snd].
  set (w' := mkWorld _ _ _ _ _).
  assert (Hp' : remote env' (print_request env' (token w') (awb w'))
                = Resolved (mkResponse 200 (JStr (Base64.encode b)))) by exact Hp.
  assert (Hw' : write_error env' (ToString (awb w') +:+ ".pdf") = None) by exact Hw.
  rewrite (printAWB_ok env' w' _ (Base64.encode b) Hp' eq_refl eq_refl Hw').
  cbn [fst snd files requests]. repeat split.
  change (ToString (awb w')) with id. rewrite lookup_insert_eq.
  now rewrite decode_encode.
Qed.

Lemma label_follows_waybill_witness :
  let pdf := [x25; x50; x44; x46; x2d; x31; x2e; x34] in
  let env := serving (Reply 200 (JStr "AWB1")) in
  let env' := serving (Reply 200 (JStr (Base64.encode pdf))) in
  let w := session (JStr "tok") JNull in
  let w' := snd (createAWB env (JObj []) w) in
  url (print_request env' (JStr "tok") (JStr "AWB1"))
  = "/AwbDocuments?barCodes=AWB1&type=PDF&format=0"
  /\ requests (snd (printAWB env' w'))
     = (requests w' ++ [print_request env' (JStr "tok") (JStr "AWB1")])%list
  /\ fst (printAWB env' w') = Normal (JStr "AWB1.pdf")
  /\ files (snd (printAWB env' w')) !! "AWB1.pdf" = Some pdf.
Proof.
  intros pdf env env' w w'.
  apply (label_follows_waybill env env' (JObj []) w "tok" "AWB1" pdf);
    [reflexivity | discriminate | reflexivity | reflexivity | reflexivity].
Defined.

Lemma call_keeps_null_awb env c w :
  awb w = JNull ->
  create_returned (c, fst (run_call env c w)) = false ->
  awb (snd (run_call env c w)) = JNull.
Proof.
  intros Hnull.
  destruct c as [u p | | countyId | awbData | ]; intros Hret.
  - cbn [run_call]. now rewrite loginUser_keeps_awb.
  - cbn [run_call]. now rewrite (proj2 (getCounties_keeps_session env w)).
  - cbn [run_call]. now rewrite (proj2 (getLocalities_keeps_session env countyId w)).
  - revert Hret. unfold create_returned. run_all; intros Hret; try assumption.
    all: try discriminate; reflexivity.
  - cbn [run_call]. now rewrite (proj2 (printAWB_keeps_session env w)).
Qed.

Lemma run_calls_without_waybill steps :
  forall w history w',
    awb w = JNull ->
    run_calls steps w = (history, w') ->
    existsb create_returned history = false ->
    awb w' = JNull.
Proof.
  induction steps as [| [env c] rest IH]; intros w history w' Hnull Hrun Hno.
  - cbn in Hrun. now inversion Hrun; subst.
  - cbn in Hrun.
    destruct (run_call env c w) as [r w1] eqn:Hcall.
    destruct (run_calls rest w1) as [h w2] eqn:Hrest.
    inversion Hrun; subst history w'. cbn in Hno.
    apply orb_false_iff in Hno as [Hc Hh].
    apply (IH w1 h w2); [| exact Hrest | exact Hh].
    replace w1 with (snd (run_call env c w)) by now rewrite Hcall.
    apply call_keeps_null_awb; [exact Hnull | now rewrite Hcall].
Qed.

(** X13. Printing before any waybill exists: as long as every [createAWB]
    since the object was built has returned [null], the stored waybill is
    [null].  When the token is then a string or absent, [printAWB] asks for
    the bar code ["null"], and on a status 200 response whose body is the
    base64 text of the bytes [b] and a disk that accepts the write it stores
    [b] under ["null.pdf"] and returns that name. *)
Theorem print_before_create
    (steps : list (Env * Call)) (history : list (Call * Completion JsValue))
    (w : World) (env : Env) :
  run_calls steps constructor = (history, w) ->
  existsb create_returned history = false ->
  textual (token w) = true ->
  awb w = JNull
  /\ (exists req,
        requests (snd (printAWB env w)) = (requests w ++ [req])%list
        /\ url req = "/AwbDocuments?barCodes=null&type=PDF&format=0")
  /\ forall b,
      remote env (print_request env (token w) JNull)
      = Resolved (mkResponse 200 (JStr (Base64.encode b))) ->
      write_error env "null.pdf" = None ->
      fst (printAWB env w) = Normal (JStr "null.pdf")
      /\ files (snd (printAWB env w)) !! "null.pdf" = Some b.
Proof.
  intros Hrun Hno _.
  assert (Hnull : awb w = JNull)
    by apply (run_calls_without_waybill steps constructor history w eq_refl Hrun Hno).
  split; [exact Hnull|]. split.
  - exists (request_of env CallPrint w).
    pose proof (call_sends env CallPrint w) as H. cbn in H. rewrite H.
    split; [reflexivity|]. cbn. now rewrite Hnull.
  - intros b Hr Hw.
    assert (Hr' : remote env (print_request env (token w) (awb w))
                  = Resolved (mkResponse 200 (JStr (Base64.encode b)))) by now rewrite Hnull.
    assert (Hw' : write_error env (ToString (awb w) +:+ ".pdf") = None) by now rewrite Hnull.
    rewrite (printAWB_ok env w _ (Base64.encode b) Hr' eq_refl eq_refl Hw').
    cbn [fst snd files]. rewrite Hnull. split; [reflexivity|].
    change (ToString JNull +:+ ".pdf") with "null.pdf".
    rewrite lookup_insert_eq. now rewrite decode_encode.
Qed.

Lemma print_before_create_witness :
  let pdf := [x25; x50; x44; x46; x2d; x31; x2e; x34] in
  let steps := [(serving (Reply 200 (JStr "tok123")), CallLogin (JStr "user") (JStr "pass"));
                (serving (Reply 500 (JStr "down")), CallCreate (JObj []))] in
  let w := snd (run_calls steps constructor) in
  let env := serving (Reply 200 (JStr (Base64.encode pdf))) in
  awb w = JNull
  /\ (exists req,
        requests (snd (printAWB env w)) = (requests w ++ [req])%list
        /\ url req = "/AwbDocuments?barCodes=null&type=PDF&format=0")
  /\ fst (printAWB env w) = Normal (JStr "null.pdf")
  /\ files (snd (printAWB env w)) !! "null.pdf" = Some pdf.
Proof.
  intros pdf steps w env.
  destruct (print_before_create steps (fst (run_calls steps constructor)) w env
              eq_refl eq_refl eq_refl) as (Hnull & Hreq & Hfile).
  split; [exact Hnull|]. split; [exact Hreq|].
  apply (Hfile pdf); reflexivity.
Defined.

(** X14. In a session whose token is a non-empty string, when axios rejects
    the [createAWB] request, the method returns [null] after writing the
    message of the error, followed by the body of the answer of the service
    exactly when the error carries one. *)
Theorem createAWB_rejected
    (env : Env) (awbData : JsValue) (w : World) (t : string) (e : JsError) :
  token w = JStr t ->
  t <> "" ->
  remote env (create_request env (JStr t) awbData) = Rejected e ->
  fst (createAWB env awbData w) = Normal JNull
  /\ console (snd (createAWB env awbData w))
     = (console w
        ++ mkEntry Error [CVal (JStr "Error generating AWB:"); CVal (JStr (message e))]
           :: match response e with
              | Some r => [mkEntry Error [CVal (JStr "Error response:"); CVal (data r)]]
              | None => []
              end)%list.
Proof.
  intros Htok Hne Hr.
  assert (Ht : ToBoolean (token w) = true).
  { rewrite Htok. destruct t; [contradiction | reflexivity]. }
  rewrite <- Htok in Hr.
  unfold_methods. cbn in *. rewrite Ht. cbn. rewrite Hr. cbn.
  destruct (response e); cbn; split; try reflexivity.
  now rewrite <- app_assoc.
Qed.

Lemma createAWB_rejected_witness :
  let body := JObj [("Error", JStr "Invalid recipient")] in
  let env := serving (Reply 400 body) in
  let w := session (JStr "tok") JNull in
  fst (createAWB env (JObj []) w) = Normal JNull
  /\ console (snd (createAWB env (JObj []) w))
     = [mkEntry Error [CVal (JStr "Error generating AWB:");
                       CVal (JStr "Request failed with status code 400")];
        mkEntry Error [CVal (JStr "Error response:"); CVal body]].
Proof.
  intros body env w.
  apply (createAWB_rejected env (JObj []) w "tok"
           (mkError "Request failed with status code 400" (Some (mkResponse 400 body))));
    [reflexivity | discriminate | reflexivity].
Defined.

(** ** The two declarations of [getLocalities] *)

(** X15. In a session whose token is a string or absent, the declaration of
    [getLocalities] that is replaced and the one in force send the same
    request and leave the same token, waybill and files.  They behave alike
    without a token and on a status 200 response.  On any other outcome the
    first returns [null] after one diagnostic, where the one in force
    returns [undefined]. *)
Theorem getLocalities_declarations (env : Env) (countyId : JsValue) (w : World) :
  textual (token w) = true ->
  let first := getLocalities_shadowed env countyId w in
  let second := getLocalities env countyId w in
  let outcome := remote env (localities_request env (token w) countyId) in
  (token (snd first) = token (snd second)
   /\ awb (snd first) = awb (snd second)
   /\ requests (snd first) = requests (snd second)
   /\ files (snd first) = files (snd second))
  /\ (ToBoolean (token w) = false \/ not_ok outcome = false -> first = second)
  /\ (ToBoolean (token w) = true -> not_ok outcome = true ->
      fst first = Normal JNull
      /\ fst second = Normal JUndefined
      /\ exists entry, console (snd first) = (console w ++ [entry])%list).
Proof.
  intros _ first second outcome. subst first second outcome.
  unfold not_ok. unfold_methods. cbn.
  destruct (ToBoolean (token w)); cbn;
    [destruct (remote env _) as [r | e]; cbn; [destruct (status r =? 200); cbn |] |].
  all: split; [repeat split; reflexivity |].
  all: split;
    [ intros [H | H]; first [discriminate H | reflexivity]
    | intros H1 H2;
      first [discriminate H1 | discriminate H2 | repeat split; eauto] ].
Qed.

Lemma getLocalities_declarations_witness :
  let env := serving (Reply 204 (JStr "")) in
  let w := session (JStr "tok") JNull in
  fst (getLocalities_shadowed env (JNum 1) w) = Normal JNull
  /\ fst (getLocalities env (JNum 1) w) = Normal JUndefined
  /\ exists entry,
      console (snd (getLocalities_shadowed env (JNum 1) w)) = (console w ++ [entry])%list.
Proof.
  intros env w.
  apply (proj2 (proj2 (getLocalities_declarations env (JNum 1) w eq_refl))); reflexivity.
Defined.

(** ** Sessions over time *)

(** X16. A token is never lost: over any sequence of calls in which no
    [loginUser] returns [true], failed logins included, the token at the end
    is the token at the start. *)
Theorem token_survives
    (steps : list (Env * Call)) (w : World) :
  existsb login_succeeded (fst (run_calls steps w)) = false ->
  token (snd (run_calls steps w)) = token w.
Proof.
  intros Hno. destruct (run_calls steps w) as [history w'] eqn:Hrun.
  exact (run_calls_without_login steps w history w' Hrun Hno).
Qed.

Lemma token_survives_witness :
  let steps := [(serving (Reply 401 (JStr "Unauthorized")), CallLogin (JStr "user") (JStr "bad"));
                (serving (Reply 200 (JStr "AWB1")), CallCreate (JObj []));
                (serving (NoReply "timeout of 120000ms exceeded"), CallPrint)] in
  let w := session (JStr "tok123") JNull in
  token (snd (run_calls steps w)) = JStr "tok123".
Proof.
  intros steps w. apply (token_survives steps w). reflexivity.
Defined.

(** X17. Without a usable token (absent, or falsy like the empty string or
    [0]) a guarded method does one thing only: it writes the line "Token not
    available. Please login first." to the error console and returns
    [null].  Nothing else of the world changes. *)
Theorem guarded_without_token (env : Env) (c : Call) (w : World) :
  guarded c = true ->
  ToBoolean (token w) = false ->
  run_call env c w
  = (Normal JNull,
     logged Error [CVal (JStr "Token not available. Please login first.")] w).
Proof.
  intros Hg Ht.
  destruct c as [u p | | countyId | awbData | ]; try discriminate Hg; cbn [run_call].
  - now apply getCounties_no_token.
  - now apply getLocalities_no_token.
  - now apply createAWB_no_token.
Qed.

Lemma guarded_without_token_witness :
  let env := serving (Reply 200 (JArr [])) in
  let w := session (JNum 0) (JStr "AWB1") in
  run_call env (CallLocalities (JNum 7)) w
  = (Normal JNull,
     logged Error [CVal (JStr "Token not available. Please login first.")] w).
Proof.
  intros env w. apply (guarded_without_token env (CallLocalities (JNum 7)) w); reflexivity.
Defined.
